(** * The SIR epidemic model of the COVID-19 prediction notebook

    The notebook defines two entry points, [SIR] and [SIR_mitigated].  Each
    builds the right-hand side [f] of the SIR differential system as a closure
    over a scratch array [du], derives the initial state [u0] from the
    reported case counts, and hands both to [scipy.integrate.solve_ivp].

    Number model.  Python and NumPy floats are embedded as exact rationals
    ([Q]): every arithmetic operation is the exact one, without rounding and
    without [inf] / [nan].  Python's float division raises
    [ZeroDivisionError] on a zero divisor; that is kept.  NumPy arrays of
    floats are lists of rationals, and an index outside the array raises
    [IndexError] as in NumPy.

    The integrator [solve_ivp] is SciPy's and not part of the notebook; it is
    a parameter of the entry points. *)

From Stdlib Require Import QArith Qabs Lqa Qfield FunctionalExtensionality.
From stdpp Require Import base list.

Local Open Scope Q_scope.

(** ** Exceptions and the result monad *)

Inductive exn : Type :=
| ZeroDivisionError
| IndexError.

Inductive result (A : Type) : Type :=
| Ok (a : A)
| Raise (e : exn).

Arguments Ok {A} a.
Arguments Raise {A} e.

#[export] Instance result_ret : MRet result := fun A a => Ok a.
#[export] Instance result_bind : MBind result :=
  fun A B k m => match m with Ok a => k a | Raise e => Raise e end.

Definition fails {A} (r : result A) : Prop := exists e, r = Raise e.

(** ** Floats and arrays *)

(** [x < y] on floats, as a boolean. *)
Definition Qlt_bool (x y : Q) : bool := negb (Qle_bool y x).

(** Python's [x / y] on floats. *)
Definition truediv (x y : Q) : result Q :=
  if Qeq_bool y 0 then Raise ZeroDivisionError else Ok (x / y).

Definition ndarray : Type := list Q.

(** [np.zeros(n)] *)
Definition zeros (n : nat) : ndarray := replicate n 0.

(** [a[i]] *)
Definition getitem (a : ndarray) (i : nat) : result Q :=
  match a !! i with
  | Some x => Ok x
  | None => Raise IndexError
  end.

(** [a[i] = x] *)
Definition setitem (a : ndarray) (i : nat) (x : Q) : result ndarray :=
  if decide (i < length a)%nat then Ok (<[i := x]> a) else Raise IndexError.

(** [np.arange(0, n)] *)
Definition arange (n : nat) : ndarray :=
  map (fun k => inject_Z (Z.of_nat k)) (seq 0 n).

(** ** The interface of [scipy.integrate.solve_ivp] *)

Inductive method : Type := RK45 | RK23.

(** [solution.y]: one row per component, one column per requested time. *)
Record OdeResult : Type := { y : list ndarray }.

(** [solve_ivp(fun, t_span, y0, t_eval=..., method=...)]; the default
    method is [RK45]. *)
Definition ivp_solver : Type :=
  method -> (Q -> ndarray -> result ndarray) -> Q * Q -> ndarray -> ndarray ->
  result OdeResult.

(** [solution.y[i,:]] *)
Definition row (s : OdeResult) (i : nat) : result ndarray :=
  match y s !! i with
  | Some r => Ok r
  | None => Raise IndexError
  end.

(** ** [SIR]: the outbreak without mitigation *)

Module SIR.
Section Model.
Variables (beta gamma N confirmed_fraction : Q).

(** The closure [f(t,u)].  It writes the derivative into the array [du] of
    the enclosing call and returns that same array; [du] is threaded
    explicitly.  All three entries are overwritten, so the value returned
    does not depend on what [du] held before ([SIR_f_eval] below).  The
    division by [N] is NumPy's and raises nothing; for [N = 0] NumPy yields
    [inf] or [nan], which the rationals do not have, and the properties that
    depend on the quotient assume [0 < N]. *)
Definition f (du : ndarray) (t : Q) (u : ndarray) : result ndarray :=
  u1 ← getitem u 1; u0 ← getitem u 0;
  du ← setitem du 0 (- beta * u1 * u0 / N);
  u1 ← getitem u 1; u0 ← getitem u 0; u1' ← getitem u 1;
  du ← setitem du 1 (beta * u1 * u0 / N - gamma * u1');
  u1 ← getitem u 1;
  du ← setitem du 2 (gamma * u1);
  mret du.

(** The block under [# Initial values]. *)
Definition u0 : result ndarray :=
  let u0 := zeros 3 in
  total_cases ← truediv 199258 confirmed_fraction;
  r ← truediv 81972 confirmed_fraction;
  u0 ← setitem u0 2 (r + 7956);
  u0_2 ← getitem u0 2;
  u0 ← setitem u0 1 (total_cases - u0_2);
  u0_1 ← getitem u0 1; u0_2 ← getitem u0 2;
  u0 ← setitem u0 0 (N - u0_1 - u0_2);
  mret u0.

Definition T : nat := 400.
Definition times : ndarray := arange T.

(** The numerical part of [SIR]: the three curves that are plotted. *)
Definition SIR (solve_ivp : ivp_solver) : result (ndarray * ndarray * ndarray) :=
  let du := zeros 3 in
  u0 ← u0;
  solution ← solve_ivp RK45 (f du) (0, inject_Z (Z.of_nat T)) u0 times;
  S ← row solution 0;
  I ← row solution 1;
  R ← row solution 2;
  mret (S, I, R).
End Model.
End SIR.

(** ** [SIR_mitigated]: contact rate scaled by [q] during the first [Nq] days *)

Module SIR_mitigated.
Section Model.
Variables (beta gamma N confirmed_fraction q Nq : Q).

(** The local [qval] of the closure [f]. *)
Definition qval (t : Q) : Q := if Qlt_bool t Nq then q else 1.

Definition f (du : ndarray) (t : Q) (u : ndarray) : result ndarray :=
  let qval := qval t in
  u1 ← getitem u 1; u0 ← getitem u 0;
  du ← setitem du 0 (- qval * beta * u1 * u0 / N);
  u1 ← getitem u 1; u0 ← getitem u 0; u1' ← getitem u 1;
  du ← setitem du 1 (qval * beta * u1 * u0 / N - gamma * u1');
  u1 ← getitem u 1;
  du ← setitem du 2 (gamma * u1);
  mret du.

Definition u0 : result ndarray :=
  let u0 := zeros 3 in
  total_cases ← truediv 199258 confirmed_fraction;
  r ← truediv 81972 confirmed_fraction;
  u0 ← setitem u0 2 (r + 7956);
  u0_2 ← getitem u0 2;
  u0 ← setitem u0 1 (total_cases - u0_2);
  u0_1 ← getitem u0 1; u0_2 ← getitem u0 2;
  u0 ← setitem u0 0 (N - u0_1 - u0_2);
  mret u0.

Definition T : nat := 400.
Definition times : ndarray := arange T.

Definition SIR_mitigated (solve_ivp : ivp_solver) :
    result (ndarray * ndarray * ndarray) :=
  let du := zeros 3 in
  u0 ← u0;
  solution ← solve_ivp RK23 (f du) (0, inject_Z (Z.of_nat T)) u0 times;
  S ← row solution 0;
  I ← row solution 1;
  R ← row solution 2;
  mret (S, I, R).
End Model.
End SIR_mitigated.

(** ** The specification's formulas, for comparison with the code *)

Module Spec.
(** The snapshot of reported counts that seeds the initial state. *)
Record ObservedCaseCounts : Type := {
  cumulativeConfirmed : Q;
  cumulativeRecoveredConfirmed : Q;
  additionalRecoveredOffset : Q
}.

(** The state vector [(S0, I0, R0)] of the deriver, as the specification
    computes it from arbitrary counts. *)
Definition deriveInitialState (c : ObservedCaseCounts)
    (confirmedFraction population : Q) : ndarray :=
  let totalCasesEstimate := cumulativeConfirmed c / confirmedFraction in
  let R0 := cumulativeRecoveredConfirmed c / confirmedFraction
            + additionalRecoveredOffset c in
  let I0 := totalCasesEstimate - R0 in
  let S0 := population - I0 - R0 in
  [S0; I0; R0].

(** The counts written as literals in the notebook. *)
Definition reference_counts : ObservedCaseCounts :=
  {| cumulativeConfirmed := 199258;
     cumulativeRecoveredConfirmed := 81972;
     additionalRecoveredOffset := 7956 |}.

(** The differential system with multiplier [m] on the contact rate:
    [dS/dt = - m beta I S / N], [dI/dt = m beta I S / N - gamma I],
    [dR/dt = gamma I]. *)
Definition rhs (m beta gamma N S I R : Q) : ndarray :=
  [ - (m * beta * I * S / N); m * beta * I * S / N - gamma * I; gamma * I ].
End Spec.

(** Arrays compared component by component, up to equality of rationals. *)
Definition veq (a b : ndarray) : Prop := Forall2 Qeq a b.

(** [r] is a normal return whose array equals [v]. *)
Definition returns (r : result ndarray) (v : ndarray) : Prop :=
  exists d, r = Ok d /\ veq d v.

(** [np.sum(a)] *)
Definition total (a : ndarray) : Q := fold_right Qplus 0 a.

(** [x] agrees with [y] to within [eps]. *)
Definition approx (eps x y : Q) : Prop := Qabs (x - y) <= eps.

(** [u + h * k], component by component: the shape of every stage, step
    and interpolated sample that an explicit one-step integrator forms. *)
Definition axpy (h : Q) (k u : ndarray) : ndarray :=
  zip_with (fun x d => x + h * d) u k.

(** The states that can be formed from [init] by adding multiples of values
    of the right-hand side [F], taken at any time and any state. *)
Inductive reachable (F : Q -> ndarray -> result ndarray) (init : ndarray) :
    ndarray -> Prop :=
| reachable_init : reachable F init init
| reachable_step (u : ndarray) (h t : Q) (v k : ndarray) :
    reachable F init u -> F t v = Ok k -> reachable F init (axpy h k u).

(** ** The interactive widgets

    [interact] calls the entry point with one value per slider; a slider
    yields values between its [min] and its [max]. *)

Module widgets.
(** [widgets.FloatSlider(min=..., max=..., step=..., value=...)] *)
Record FloatSlider : Type := { min : Q; max : Q; step : Q; value : Q }.

(** [widgets.IntSlider(min=..., max=..., step=..., value=...)]: a slider
    over the integers. *)
Definition IntSlider (min max step value : Z) : FloatSlider :=
  {| min := inject_Z min; max := inject_Z max;
     step := inject_Z step; value := inject_Z value |}.

(** The values a slider can hand to the function it drives. *)
Definition in_range (s : FloatSlider) (v : Q) : Prop :=
  min s <= v /\ v <= max s.
End widgets.

(** The arguments of [interact(SIR, ...)]. *)
Module interact_SIR.
Definition beta : widgets.FloatSlider :=
  {| widgets.min := 0.01; widgets.max := 0.5;
     widgets.step := 0.01; widgets.value := 0.25 |}.
Definition gamma : widgets.FloatSlider :=
  {| widgets.min := 0.01; widgets.max := 0.5;
     widgets.step := 0.01; widgets.value := 0.05 |}.
(** [widgets.fixed(7770000000)] *)
Definition N : Q := 7770000000.
Definition confirmed_fraction : widgets.FloatSlider :=
  {| widgets.min := 0.01; widgets.max := 1.0;
     widgets.step := 0.01; widgets.value := 0.15 |}.
End interact_SIR.

(** The arguments of [interact(SIR_mitigated, ...)]. *)
Module interact_SIR_mitigated.
Definition beta : widgets.FloatSlider :=
  {| widgets.min := 0.01; widgets.max := 0.5;
     widgets.step := 0.01; widgets.value := 0.25 |}.
Definition gamma : widgets.FloatSlider :=
  {| widgets.min := 0.01; widgets.max := 0.5;
     widgets.step := 0.01; widgets.value := 0.05 |}.
Definition N : Q := 7770000000.
Definition confirmed_fraction : widgets.FloatSlider :=
  {| widgets.min := 0.01; widgets.max := 1.0;
     widgets.step := 0.01; widgets.value := 0.15 |}.
Definition q : widgets.FloatSlider :=
  {| widgets.min := 0.01; widgets.max := 1.0;
     widgets.step := 0.01; widgets.value := 0.5 |}.
Definition Nq : widgets.FloatSlider := widgets.IntSlider 10 400 5 180.
End interact_SIR_mitigated.


(** * Properties *)

(** ** Basic facts about the array and float primitives *)

Lemma Qlt_bool_true (x y : Q) : x < y -> Qlt_bool x y = true.
Proof.
  intros Hlt. unfold Qlt_bool.
  destruct (Qle_bool y x) eqn:E; [|reflexivity].
  apply Qle_bool_iff in E. exfalso. exact (Qlt_not_le _ _ Hlt E).
Qed.

Lemma Qlt_bool_false (x y : Q) : y <= x -> Qlt_bool x y = false.
Proof.
  intros Hle. unfold Qlt_bool.
  apply (proj2 (Qle_bool_iff y x)) in Hle. now rewrite Hle.
Qed.

Lemma truediv_nonzero (x y : Q) : ~ y == 0 -> truediv x y = Ok (x / y).
Proof.
  intros Hy. unfold truediv.
  destruct (Qeq_bool y 0) eqn:E; [|reflexivity].
  apply Qeq_bool_iff in E. contradiction.
Qed.

Lemma truediv_zero (x y : Q) : y == 0 -> truediv x y = Raise ZeroDivisionError.
Proof.
  intros Hy. unfold truediv.
  apply (proj2 (Qeq_bool_iff y 0)) in Hy. now rewrite Hy.
Qed.

Lemma veq3 (a b c a' b' c' : Q) :
  a == a' -> b == b' -> c == c' -> veq [a; b; c] [a'; b'; c'].
Proof. intros. repeat constructor; assumption. Qed.

Lemma length3 (du : ndarray) :
  length du = 3%nat -> exists a b c, du = [a; b; c].
Proof.
  destruct du as [|a [|b [|c [|d du]]]]; simpl; intros H; try discriminate.
  now exists a, b, c.
Qed.

(** ** The two closures [f], evaluated *)

Lemma SIR_f_eval (beta gamma N t S I R : Q) (du : ndarray) :
  length du = 3%nat ->
  SIR.f beta gamma N du t [S; I; R]
  = Ok [- beta * I * S / N; beta * I * S / N - gamma * I; gamma * I].
Proof.
  intros Hdu. destruct (length3 du Hdu) as (a & b & c & ->). reflexivity.
Qed.

Lemma SIR_mitigated_f_eval (beta gamma N q Nq t S I R : Q) (du : ndarray) :
  length du = 3%nat ->
  SIR_mitigated.f beta gamma N q Nq du t [S; I; R]
  = Ok [- SIR_mitigated.qval q Nq t * beta * I * S / N;
        SIR_mitigated.qval q Nq t * beta * I * S / N - gamma * I;
        gamma * I].
Proof.
  intros Hdu. destruct (length3 du Hdu) as (a & b & c & ->). reflexivity.
Qed.

(** ** The initial state, evaluated *)

Lemma SIR_u0_eval (N cf : Q) :
  ~ cf == 0 ->
  SIR.u0 N cf = Ok (Spec.deriveInitialState Spec.reference_counts cf N).
Proof.
  intros Hcf. unfold SIR.u0.
  rewrite !truediv_nonzero by assumption. reflexivity.
Qed.

Lemma SIR_u0_zero (N cf : Q) :
  cf == 0 -> SIR.u0 N cf = Raise ZeroDivisionError.
Proof.
  intros Hcf. unfold SIR.u0. rewrite !truediv_zero by assumption. reflexivity.
Qed.

Lemma u0_same (N cf : Q) : SIR_mitigated.u0 N cf = SIR.u0 N cf.
Proof. reflexivity. Qed.

(** ** The initial state *)

(** C1, the claim as stated, refuted: the derivation does not take the
    observed counts as an input.  At confirmed fraction 1 and population
    7770000000 the specification's formula for the counts (1000, 100, 0) gives
    a state that [u0] does not return, even up to equality of rationals. *)
Lemma C1_counts_not_an_input :
  0 < 1 /\ 1 <= 1 /\ 0 < 7770000000 /\
  ~ returns (SIR.u0 7770000000 1)
      (Spec.deriveInitialState
         {| Spec.cumulativeConfirmed := 1000;
            Spec.cumulativeRecoveredConfirmed := 100;
            Spec.additionalRecoveredOffset := 0 |} 1 7770000000).
Proof.
  split; [reflexivity|]. split; [discriminate|]. split; [reflexivity|].
  intros (d & Hd & Hv). vm_compute in Hd. injection Hd; intros <-.
  inversion Hv as [|? ? ? ? _ Hv']; subst.
  inversion Hv' as [|? ? ? ? H1 _]; subst.
  vm_compute in H1. discriminate H1.
Qed.

(** C1, amended: with the observed counts fixed to the literals of the
    notebook (199258 confirmed, 81972 recovered, offset 7956), for every
    confirmed fraction in (0,1] and every population N > 0 the derivation
    returns exactly R0 = 81972 / cf + 7956, I0 = 199258 / cf - R0 and
    S0 = N - I0 - R0, and [SIR_mitigated] derives the very same state as
    [SIR]. *)
Theorem C1_initial_state (N cf : Q) :
  0 < cf -> cf <= 1 -> 0 < N ->
  let R0 := 81972 / cf + 7956 in
  let I0 := 199258 / cf - R0 in
  let S0 := N - I0 - R0 in
  SIR.u0 N cf = Ok [S0; I0; R0] /\
  SIR_mitigated.u0 N cf = Ok [S0; I0; R0] /\
  [S0; I0; R0] = Spec.deriveInitialState Spec.reference_counts cf N.
Proof.
  intros Hpos _ _ R0 I0 S0.
  assert (Hne : ~ cf == 0) by (intros E; rewrite E in Hpos; discriminate Hpos).
  change (SIR_mitigated.u0 N cf) with (SIR.u0 N cf).
  rewrite (SIR_u0_eval N cf Hne). repeat split; reflexivity.
Qed.

Lemma C1_initial_state_witness :
  SIR.u0 7770000000 0.15
  = Ok [7770000000 - (199258 / 0.15 - (81972 / 0.15 + 7956))
          - (81972 / 0.15 + 7956);
        199258 / 0.15 - (81972 / 0.15 + 7956);
        81972 / 0.15 + 7956].
Proof.
  refine (proj1 (C1_initial_state 7770000000 0.15 _ _ _));
    [reflexivity | discriminate | reflexivity].
Defined.

(** C2, the claim as stated, refuted: a confirmed fraction of -1 is not
    rejected.  The derivation returns a state, whose infected and recovered
    counts are negative. *)
Lemma C2_negative_fraction_accepted :
  -(1) <= 0 /\
  SIR.u0 7770000000 (-(1)) = Ok [7770199258; -(125242); -(74016)] /\
  -(125242) < 0 /\
  ~ fails (SIR.u0 7770000000 (-(1))).
Proof.
  split; [discriminate|]. split; [reflexivity|]. split; [reflexivity|].
  intros (e & He). vm_compute in He. discriminate He.
Qed.

(** C2, amended: the derivation validates nothing.  It fails exactly when
    the confirmed fraction is zero, and then with the division's
    [ZeroDivisionError]; for every other confirmed fraction, negative ones
    and ones that make I0 or S0 negative included, it returns the state given
    by the formulas, unclamped.  Both entry points behave so. *)
Theorem C2_no_validation (N cf : Q) :
  (cf == 0 ->
     SIR.u0 N cf = Raise ZeroDivisionError /\
     SIR_mitigated.u0 N cf = Raise ZeroDivisionError) /\
  (~ cf == 0 ->
     SIR.u0 N cf = Ok (Spec.deriveInitialState Spec.reference_counts cf N) /\
     SIR_mitigated.u0 N cf
     = Ok (Spec.deriveInitialState Spec.reference_counts cf N)).
Proof.
  split; intros Hcf; change (SIR_mitigated.u0 N cf) with (SIR.u0 N cf).
  - split; apply SIR_u0_zero; assumption.
  - split; apply SIR_u0_eval; assumption.
Qed.

Lemma C2_no_validation_witness :
  (SIR.u0 1 (0 # 5) = Raise ZeroDivisionError /\
   SIR_mitigated.u0 1 (0 # 5) = Raise ZeroDivisionError) /\
  (SIR.u0 1 0.15 = Ok (Spec.deriveInitialState Spec.reference_counts 0.15 1) /\
   SIR_mitigated.u0 1 0.15
   = Ok (Spec.deriveInitialState Spec.reference_counts 0.15 1)).
Proof.
  split.
  - apply (proj1 (C2_no_validation 1 (0 # 5))). reflexivity.
  - apply (proj2 (C2_no_validation 1 0.15)). discriminate.
Defined.

(** C8, the claim as stated, refuted: for a confirmed fraction of 0.15 the
    derived I0 is not within 467000 of 1,241,913 and the derived R0 is not
    within 176 of 554,613. *)
Lemma C8_reference_state_mismatch :
  exists S0 I0 R0,
    SIR.u0 7770000000 0.15 = Ok [S0; I0; R0] /\
    ~ approx 467000 I0 1241913 /\
    ~ approx 176 R0 554613.
Proof.
  eexists _, _, _. split; [reflexivity|].
  split; intros H; vm_compute in H; exact (H eq_refl).
Qed.

(** C8, amended: with confirmed fraction 0.15 and the notebook's counts the
    derived initial state is I0 = 2321852/3, about 773,951, and
    R0 = 554,436, with S0 = population - I0 - R0 (23306014840/3 for the
    default population). *)
Theorem C8_reference_state :
  exists S0 I0 R0,
    SIR.u0 7770000000 0.15 = Ok [S0; I0; R0] /\
    I0 == 2321852 # 3 /\ approx (1 # 2) I0 773951 /\
    R0 == 554436 /\
    S0 == 7770000000 - I0 - R0 /\ S0 == 23306014840 # 3.
Proof.
  eexists _, _, _. split; [reflexivity|].
  repeat split; try reflexivity.
  unfold approx. vm_compute. discriminate.
Qed.

(** C10: with the notebook's counts the derived I0 is strictly positive for
    every confirmed fraction in (0,1]: I0 = (199258 - 81972) / cf - 7956,
    which is at least 117286 - 7956.  This holds in both entry points. *)
Theorem C10_infected_positive (N cf : Q) :
  0 < cf -> cf <= 1 ->
  exists S0 I0 R0,
    SIR.u0 N cf = Ok [S0; I0; R0] /\
    SIR_mitigated.u0 N cf = Ok [S0; I0; R0] /\
    I0 == (199258 - 81972) / cf - 7956 /\
    117286 - 7956 <= I0 /\
    0 < I0.
Proof.
  intros Hpos Hle.
  assert (Hne : ~ cf == 0) by (intros E; rewrite E in Hpos; discriminate Hpos).
  change (SIR_mitigated.u0 N cf) with (SIR.u0 N cf).
  rewrite (SIR_u0_eval N cf Hne). eexists _, _, _.
  split; [reflexivity|]. split; [reflexivity|]. cbn.
  assert (HI : 199258 / cf - (81972 / cf + 7956) == 117286 / cf - 7956)
    by (field; assumption).
  assert (Hdiv : 117286 <= 117286 / cf)
    by (apply Qle_shift_div_l; [assumption | lra]).
  split; [|split].
  - rewrite HI. field. assumption.
  - rewrite HI. lra.
  - rewrite HI. lra.
Qed.

Lemma C10_infected_positive_witness :
  exists S0 I0 R0,
    SIR.u0 7770000000 1 = Ok [S0; I0; R0] /\
    SIR_mitigated.u0 7770000000 1 = Ok [S0; I0; R0] /\
    I0 == (199258 - 81972) / 1 - 7956 /\
    117286 - 7956 <= I0 /\
    0 < I0.
Proof.
  apply (C10_infected_positive 7770000000 1); [reflexivity | discriminate].
Defined.

(** ** The right-hand side *)

Lemma qval_before (q Nq t : Q) : t < Nq -> SIR_mitigated.qval q Nq t = q.
Proof. intros H. unfold SIR_mitigated.qval. now rewrite Qlt_bool_true. Qed.

Lemma qval_after (q Nq t : Q) : Nq <= t -> SIR_mitigated.qval q Nq t = 1.
Proof. intros H. unfold SIR_mitigated.qval. now rewrite Qlt_bool_false. Qed.

Lemma SIR_f_rhs (beta gamma N t S I R : Q) (du : ndarray) :
  length du = 3%nat ->
  returns (SIR.f beta gamma N du t [S; I; R]) (Spec.rhs 1 beta gamma N S I R).
Proof.
  intros Hdu. eexists. split; [apply SIR_f_eval; assumption|].
  apply veq3; unfold Qdiv; ring.
Qed.

Lemma SIR_mitigated_f_rhs (beta gamma N q Nq t S I R : Q) (du : ndarray) :
  length du = 3%nat ->
  returns (SIR_mitigated.f beta gamma N q Nq du t [S; I; R])
          (Spec.rhs (SIR_mitigated.qval q Nq t) beta gamma N S I R).
Proof.
  intros Hdu. eexists. split; [apply SIR_mitigated_f_eval; assumption|].
  apply veq3; unfold Qdiv; ring.
Qed.

(** C3: the multiplier that the right-hand side of [SIR_mitigated] applies
    to the contact rate is q while t < Nq and 1 from t = Nq on; the
    right-hand side of [SIR], which has no schedule, is the system with
    multiplier 1 at every time. *)
Theorem C3_mitigation_multiplier (beta gamma N q Nq t S I R : Q) (du : ndarray) :
  length du = 3%nat ->
  (t < Nq ->
     SIR_mitigated.qval q Nq t = q /\
     returns (SIR_mitigated.f beta gamma N q Nq du t [S; I; R])
             (Spec.rhs q beta gamma N S I R)) /\
  (Nq <= t ->
     SIR_mitigated.qval q Nq t = 1 /\
     returns (SIR_mitigated.f beta gamma N q Nq du t [S; I; R])
             (Spec.rhs 1 beta gamma N S I R)) /\
  SIR_mitigated.qval q Nq Nq = 1 /\
  returns (SIR.f beta gamma N du t [S; I; R]) (Spec.rhs 1 beta gamma N S I R).
Proof.
  intros Hdu. repeat split.
  - now apply qval_before.
  - pose proof (SIR_mitigated_f_rhs beta gamma N q Nq t S I R du Hdu) as Hf.
    now rewrite qval_before in Hf.
  - now apply qval_after.
  - pose proof (SIR_mitigated_f_rhs beta gamma N q Nq t S I R du Hdu) as Hf.
    now rewrite qval_after in Hf.
  - apply qval_after, Qle_refl.
  - now apply SIR_f_rhs.
Qed.

Lemma C3_mitigation_multiplier_witness :
  (SIR_mitigated.qval 0.5 180 179 = 0.5 /\
   returns (SIR_mitigated.f 0.25 0.05 7770000000 0.5 180 (zeros 3) 179
              [100; 10; 1])
           (Spec.rhs 0.5 0.25 0.05 7770000000 100 10 1)) /\
  (SIR_mitigated.qval 0.5 180 180 = 1 /\
   returns (SIR_mitigated.f 0.25 0.05 7770000000 0.5 180 (zeros 3) 180
              [100; 10; 1])
           (Spec.rhs 1 0.25 0.05 7770000000 100 10 1)).
Proof.
  split.
  - apply (proj1 (C3_mitigation_multiplier 0.25 0.05 7770000000 0.5 180 179
                    100 10 1 (zeros 3) eq_refl)).
    reflexivity.
  - apply (proj1 (proj2 (C3_mitigation_multiplier 0.25 0.05 7770000000 0.5
                           180 180 100 10 1 (zeros 3) eq_refl))).
    discriminate.
Defined.

(** ** Conservation of the population *)

Lemma total_axpy (h : Q) (k u : ndarray) :
  length u = length k -> total (axpy h k u) == total u + h * total k.
Proof.
  revert k. induction u as [|x u IH]; intros [|d k] Hlen; simpl in *;
    try discriminate.
  - ring.
  - injection Hlen as Hlen. unfold axpy in IH. rewrite (IH k Hlen). ring.
Qed.

Lemma length_axpy (h : Q) (k u : ndarray) :
  length u = length k -> length (axpy h k u) = length u.
Proof.
  revert k. induction u as [|x u IH]; intros [|d k] Hlen; simpl in *;
    try discriminate; [reflexivity|].
  injection Hlen as Hlen. f_equal. exact (IH k Hlen).
Qed.

Lemma SIR_f_total (beta gamma N t : Q) (du v k : ndarray) :
  length du = 3%nat ->
  SIR.f beta gamma N du t v = Ok k -> length k = 3%nat /\ total k == 0.
Proof.
  intros Hdu Hk. destruct (length3 du Hdu) as (a & b & c & ->).
  destruct v as [|S [|I v]]; try discriminate Hk.
  injection Hk as <-. split; [reflexivity|].
  unfold total, Qdiv. simpl. ring.
Qed.

Lemma SIR_mitigated_f_total (beta gamma N q Nq t : Q) (du v k : ndarray) :
  length du = 3%nat ->
  SIR_mitigated.f beta gamma N q Nq du t v = Ok k ->
  length k = 3%nat /\ total k == 0.
Proof.
  intros Hdu Hk. destruct (length3 du Hdu) as (a & b & c & ->).
  destruct v as [|S [|I v]]; try discriminate Hk.
  injection Hk as <-. split; [reflexivity|].
  unfold total, Qdiv. simpl. ring.
Qed.

Section Reachable.
Variable F : Q -> ndarray -> result ndarray.
Variable init : ndarray.
Hypothesis F_total :
  forall t v k, F t v = Ok k -> length k = 3%nat /\ total k == 0.
Hypothesis init_length : length init = 3%nat.

Lemma reachable_total (u : ndarray) :
  reachable F init u -> length u = 3%nat /\ total u == total init.
Proof.
  induction 1 as [|u h t v k _ [IHlen IHtot] Hk].
  - split; [assumption | reflexivity].
  - destruct (F_total t v k Hk) as [Hlen Hzero].
    assert (Hsame : length u = length k) by congruence.
    split.
    + now rewrite length_axpy.
    + rewrite total_axpy by assumption. rewrite IHtot, Hzero. ring.
Qed.
End Reachable.

(** C4: S + I + R is the population N throughout.  The derived initial
    state sums to N exactly; the three components of the right-hand side sum
    to zero at every state, with and without mitigation; hence every state
    formed from the initial one by adding multiples of right-hand-side values
    has total N, so its deviation from N is within any tolerance times N. *)
Theorem C4_conservation (beta gamma N cf q Nq : Q) (du : ndarray) :
  0 < cf -> cf <= 1 -> 0 < N -> length du = 3%nat ->
  exists S0 I0 R0,
    SIR.u0 N cf = Ok [S0; I0; R0] /\
    SIR_mitigated.u0 N cf = Ok [S0; I0; R0] /\
    S0 + I0 + R0 == N /\
    (forall t S I R, exists dS dI dR,
        SIR.f beta gamma N du t [S; I; R] = Ok [dS; dI; dR] /\
        dS + dI + dR == 0) /\
    (forall t S I R, exists dS dI dR,
        SIR_mitigated.f beta gamma N q Nq du t [S; I; R] = Ok [dS; dI; dR] /\
        dS + dI + dR == 0) /\
    (forall u,
        reachable (SIR.f beta gamma N du) [S0; I0; R0] u \/
        reachable (SIR_mitigated.f beta gamma N q Nq du) [S0; I0; R0] u ->
        total u == N /\
        forall tol, 0 <= tol -> Qabs (total u - N) <= tol * N).
Proof.
  intros Hpos _ HN Hdu.
  assert (Hne : ~ cf == 0) by (intros E; rewrite E in Hpos; discriminate Hpos).
  change (SIR_mitigated.u0 N cf) with (SIR.u0 N cf).
  rewrite (SIR_u0_eval N cf Hne). eexists _, _, _.
  split; [reflexivity|]. split; [reflexivity|].
  assert (Hinit : total (Spec.deriveInitialState Spec.reference_counts cf N)
                  == N) by (unfold total; simpl; ring).
  split; [simpl; ring|]. split; [|split].
  - intros t S I R. eexists _, _, _.
    split; [apply SIR_f_eval; assumption|]. unfold Qdiv. ring.
  - intros t S I R. eexists _, _, _.
    split; [apply SIR_mitigated_f_eval; assumption|]. unfold Qdiv. ring.
  - intros u Hu.
    assert (Htot : total u == N).
    { rewrite <- Hinit. destruct Hu as [Hu|Hu].
      - eapply reachable_total; [|reflexivity|exact Hu].
        intros t v k. now apply SIR_f_total.
      - eapply reachable_total; [|reflexivity|exact Hu].
        intros t v k. now apply SIR_mitigated_f_total. }
    split; [assumption|]. intros tol Htol.
    assert (Hz : total u - N == 0) by (rewrite Htot; ring).
    rewrite Hz. change (0 <= tol * N).
    apply Qmult_le_0_compat; [assumption | apply Qlt_le_weak; assumption].
Qed.

Lemma C4_conservation_witness :
  exists S0 I0 R0,
    SIR.u0 7770000000 0.15 = Ok [S0; I0; R0] /\
    SIR_mitigated.u0 7770000000 0.15 = Ok [S0; I0; R0] /\
    S0 + I0 + R0 == 7770000000 /\
    (forall t S I R, exists dS dI dR,
        SIR.f 0.25 0.05 7770000000 (zeros 3) t [S; I; R] = Ok [dS; dI; dR] /\
        dS + dI + dR == 0) /\
    (forall t S I R, exists dS dI dR,
        SIR_mitigated.f 0.25 0.05 7770000000 0.5 180 (zeros 3) t [S; I; R]
        = Ok [dS; dI; dR] /\
        dS + dI + dR == 0) /\
    (forall u,
        reachable (SIR.f 0.25 0.05 7770000000 (zeros 3)) [S0; I0; R0] u \/
        reachable (SIR_mitigated.f 0.25 0.05 7770000000 0.5 180 (zeros 3))
                  [S0; I0; R0] u ->
        total u == 7770000000 /\
        forall tol, 0 <= tol -> Qabs (total u - 7770000000) <= tol * 7770000000).
Proof.
  apply (C4_conservation 0.25 0.05 7770000000 0.15 0.5 180 (zeros 3));
    [reflexivity | discriminate | reflexivity | reflexivity].
Defined.

(** ** Mitigation factor one *)

Lemma Qmult_1_l_eq (x : Q) : 1 * x = x.
Proof. destruct x as [[|p|p] d]; reflexivity. Qed.

Lemma Qmult_opp1_l_eq (x : Q) : - (1) * x = - x.
Proof. destruct x as [[|p|p] d]; reflexivity. Qed.





(** ** Signs of the derivative *)

(** C6: at every state with I >= 0 and for every gamma > 0 the R component
    of the right-hand side is gamma * I, which is non-negative, in [SIR] and
    in [SIR_mitigated] alike: the multiplier does not enter it. *)
Theorem C6_recovered_nondecreasing
    (beta gamma N q Nq t S I R : Q) (du : ndarray) :
  length du = 3%nat -> 0 <= I -> 0 < gamma ->
  exists dS dI dS' dI' dR,
    SIR.f beta gamma N du t [S; I; R] = Ok [dS; dI; dR] /\
    SIR_mitigated.f beta gamma N q Nq du t [S; I; R] = Ok [dS'; dI'; dR] /\
    dR = gamma * I /\
    0 <= dR.
Proof.
  intros Hdu HI Hgamma. eexists _, _, _, _, _.
  split; [apply SIR_f_eval; assumption|].
  split; [apply SIR_mitigated_f_eval; assumption|].
  split; [reflexivity|].
  apply Qmult_le_0_compat; [apply Qlt_le_weak|]; assumption.
Qed.

Lemma C6_recovered_nondecreasing_witness :
  exists dS dI dS' dI' dR,
    SIR.f 0.25 0.05 7770000000 (zeros 3) 0 [100; 10; 1] = Ok [dS; dI; dR] /\
    SIR_mitigated.f 0.25 0.05 7770000000 0.5 180 (zeros 3) 0 [100; 10; 1]
    = Ok [dS'; dI'; dR] /\
    dR = 0.05 * 10 /\
    0 <= dR.
Proof.
  apply (C6_recovered_nondecreasing 0.25 0.05 7770000000 0.5 180 0 100 10 1
           (zeros 3)); [reflexivity | discriminate | reflexivity].
Defined.

Lemma infected_derivative_factored (beta gamma N S I : Q) :
  beta * I * S / N - gamma * I == I * (beta * (S / N) - gamma).
Proof. unfold Qdiv. ring. Qed.

(** C7: for beta = 0.25 and gamma = 0.05 in [SIR], at every state with
    I > 0 the I component of the right-hand side is zero exactly when
    S / N = gamma / beta = 0.2, positive when S / N is larger and negative
    when S / N is smaller; the infection peak is where S / N = 0.2. *)
Theorem C7_peak_condition (N t S I R : Q) (du : ndarray) :
  length du = 3%nat -> 0 < N -> 0 < I ->
  exists dS dI dR,
    SIR.f 0.25 0.05 N du t [S; I; R] = Ok [dS; dI; dR] /\
    dI = 0.25 * I * S / N - 0.05 * I /\
    0.05 / 0.25 == 0.2 /\
    (dI == 0 <-> S / N == 0.05 / 0.25) /\
    (0 < dI <-> 0.05 / 0.25 < S / N) /\
    (dI < 0 <-> S / N < 0.05 / 0.25).
Proof.
  intros Hdu _ HI. eexists _, _, _.
  split; [apply SIR_f_eval; assumption|].
  split; [reflexivity|]. split; [reflexivity|].
  rewrite infected_derivative_factored.
  assert (Hr : 0.05 / 0.25 == 1 # 5) by reflexivity. rewrite Hr.
  set (x := S / N).
  assert (Hb : 0.25 * x - 0.05 == (1 # 4) * (x - (1 # 5))) by ring.
  rewrite Hb. clearbody x.
  split; [|split]; split; intros H; nra.
Qed.

Lemma C7_peak_condition_witness :
  exists dS dI dR,
    SIR.f 0.25 0.05 7770000000 (zeros 3) 0 [1554000000; 10; 1]
    = Ok [dS; dI; dR] /\
    dI = 0.25 * 10 * 1554000000 / 7770000000 - 0.05 * 10 /\
    0.05 / 0.25 == 0.2 /\
    (dI == 0 <-> 1554000000 / 7770000000 == 0.05 / 0.25) /\
    (0 < dI <-> 0.05 / 0.25 < 1554000000 / 7770000000) /\
    (dI < 0 <-> 1554000000 / 7770000000 < 0.05 / 0.25).
Proof.
  apply (C7_peak_condition 7770000000 0 1554000000 10 1 (zeros 3));
    reflexivity.
Defined.

(** * Further properties of the notebook's code *)

(** ** What the closures read, and when they fail *)

Lemma SIR_f_lookup (beta gamma N t S I : Q) (du u : ndarray) :
  length du = 3%nat -> u !! 0%nat = Some S -> u !! 1%nat = Some I ->
  SIR.f beta gamma N du t u
  = Ok [- beta * I * S / N; beta * I * S / N - gamma * I; gamma * I].
Proof.
  intros Hdu H0 H1. destruct (length3 du Hdu) as (a & b & c & ->).
  unfold SIR.f, getitem. rewrite H0, H1. reflexivity.
Qed.

Lemma SIR_mitigated_f_lookup (beta gamma N q Nq t S I : Q) (du u : ndarray) :
  length du = 3%nat -> u !! 0%nat = Some S -> u !! 1%nat = Some I ->
  SIR_mitigated.f beta gamma N q Nq du t u
  = Ok [- SIR_mitigated.qval q Nq t * beta * I * S / N;
        SIR_mitigated.qval q Nq t * beta * I * S / N - gamma * I;
        gamma * I].
Proof.
  intros Hdu H0 H1. destruct (length3 du Hdu) as (a & b & c & ->).
  unfold SIR_mitigated.f, getitem. rewrite H0, H1. reflexivity.
Qed.

Lemma lookup_two (u : ndarray) :
  (2 <= length u)%nat -> exists S I, u !! 0%nat = Some S /\ u !! 1%nat = Some I.
Proof.
  destruct u as [|S [|I u]]; simpl; intros H; try lia. now exists S, I.
Qed.

(** X1: the right-hand side of [SIR] reads only the entries 0 and 1 of the
    state and ignores the time; that of [SIR_mitigated] reads the same
    entries and uses the time only to tell which side of [Nq] it is on. *)
Theorem f_reads_S_and_I (beta gamma N q Nq t t' : Q) (du u u' : ndarray) :
  u !! 0%nat = u' !! 0%nat -> u !! 1%nat = u' !! 1%nat ->
  SIR.f beta gamma N du t u = SIR.f beta gamma N du t' u' /\
  SIR_mitigated.f beta gamma N q Nq du t u
  = SIR_mitigated.f beta gamma N q Nq du t u' /\
  ((t < Nq /\ t' < Nq) \/ (Nq <= t /\ Nq <= t') ->
   SIR_mitigated.f beta gamma N q Nq du t u
   = SIR_mitigated.f beta gamma N q Nq du t' u').
Proof.
  intros H0 H1. split; [|split].
  - unfold SIR.f, getitem. now rewrite H0, H1.
  - unfold SIR_mitigated.f, getitem. now rewrite H0, H1.
  - intros Hside.
    assert (Hq : SIR_mitigated.qval q Nq t = SIR_mitigated.qval q Nq t').
    { destruct Hside as [[Ht Ht']|[Ht Ht']].
      - now rewrite !qval_before.
      - now rewrite !qval_after. }
    unfold SIR_mitigated.f, getitem. now rewrite H0, H1, Hq.
Qed.

Lemma f_reads_S_and_I_witness :
  SIR.f 0.25 0.05 7770000000 (zeros 3) 0 [100; 10; 1]
  = SIR.f 0.25 0.05 7770000000 (zeros 3) 7 [100; 10; 55; 4] /\
  SIR_mitigated.f 0.25 0.05 7770000000 0.5 180 (zeros 3) 0 [100; 10; 1]
  = SIR_mitigated.f 0.25 0.05 7770000000 0.5 180 (zeros 3) 0 [100; 10; 55; 4] /\
  ((0 < 180 /\ 7 < 180) \/ (180 <= 0 /\ 180 <= 7) ->
   SIR_mitigated.f 0.25 0.05 7770000000 0.5 180 (zeros 3) 0 [100; 10; 1]
   = SIR_mitigated.f 0.25 0.05 7770000000 0.5 180 (zeros 3) 7
       [100; 10; 55; 4]).
Proof.
  apply (f_reads_S_and_I 0.25 0.05 7770000000 0.5 180 0 7 (zeros 3)
           [100; 10; 1] [100; 10; 55; 4]); reflexivity.
Defined.

(** X2: with the scratch array of the notebook (three entries), either
    closure raises [IndexError] exactly on states with fewer than two
    entries, and otherwise returns an array of three entries. *)
Theorem f_index_error (beta gamma N q Nq t : Q) (du u : ndarray) :
  length du = 3%nat ->
  ((length u < 2)%nat ->
     SIR.f beta gamma N du t u = Raise IndexError /\
     SIR_mitigated.f beta gamma N q Nq du t u = Raise IndexError) /\
  ((2 <= length u)%nat ->
     (exists d, SIR.f beta gamma N du t u = Ok d /\ length d = 3%nat) /\
     (exists d, SIR_mitigated.f beta gamma N q Nq du t u = Ok d /\
                length d = 3%nat)).
Proof.
  intros Hdu. split; intros Hu.
  - assert (H1 : u !! 1%nat = None) by (apply lookup_ge_None; lia).
    unfold SIR.f, SIR_mitigated.f, getitem. rewrite H1. now split.
  - destruct (lookup_two u Hu) as (S & I & H0 & H1). split.
    + eexists. split; [eapply SIR_f_lookup; eassumption | reflexivity].
    + eexists. split; [eapply SIR_mitigated_f_lookup; eassumption | reflexivity].
Qed.

Lemma f_index_error_witness :
  (SIR.f 0.25 0.05 7770000000 (zeros 3) 0 [100] = Raise IndexError /\
   SIR_mitigated.f 0.25 0.05 7770000000 0.5 180 (zeros 3) 0 [100]
   = Raise IndexError) /\
  ((exists d, SIR.f 0.25 0.05 7770000000 (zeros 3) 0 [100; 10] = Ok d /\
              length d = 3%nat) /\
   (exists d, SIR_mitigated.f 0.25 0.05 7770000000 0.5 180 (zeros 3) 0
                [100; 10] = Ok d /\ length d = 3%nat)).
Proof.
  split.
  - apply (proj1 (f_index_error 0.25 0.05 7770000000 0.5 180 0 (zeros 3)
                    [100] eq_refl)). simpl. lia.
  - apply (proj2 (f_index_error 0.25 0.05 7770000000 0.5 180 0 (zeros 3)
                    [100; 10] eq_refl)). simpl. lia.
Defined.

(** X3: the scratch array is only written: whatever two arrays of three
    entries serve as [du], either closure returns the same value, so the
    array returned by one call can be the scratch of the next. *)
Theorem f_scratch_overwritten (beta gamma N q Nq t : Q) (du du' u : ndarray) :
  length du = 3%nat -> length du' = 3%nat ->
  SIR.f beta gamma N du t u = SIR.f beta gamma N du' t u /\
  SIR_mitigated.f beta gamma N q Nq du t u
  = SIR_mitigated.f beta gamma N q Nq du' t u /\
  (forall d t1 u1, SIR.f beta gamma N du t u = Ok d ->
     SIR.f beta gamma N d t1 u1 = SIR.f beta gamma N du t1 u1) /\
  (forall d t1 u1, SIR_mitigated.f beta gamma N q Nq du t u = Ok d ->
     SIR_mitigated.f beta gamma N q Nq d t1 u1
     = SIR_mitigated.f beta gamma N q Nq du t1 u1).
Proof.
  intros Hdu Hdu'.
  assert (Hany : forall a b tt uu, length a = 3%nat -> length b = 3%nat ->
            SIR.f beta gamma N a tt uu = SIR.f beta gamma N b tt uu /\
            SIR_mitigated.f beta gamma N q Nq a tt uu
            = SIR_mitigated.f beta gamma N q Nq b tt uu).
  { intros a b tt uu Ha Hb.
    destruct (length3 a Ha) as (a0 & a1 & a2 & ->).
    destruct (length3 b Hb) as (b0 & b1 & b2 & ->).
    unfold SIR.f, SIR_mitigated.f, getitem.
    destruct (uu !! 1%nat); [|now split].
    destruct (uu !! 0%nat); now split. }
  destruct (Hany du du' t u Hdu Hdu') as [H1 H2].
  split; [exact H1|]. split; [exact H2|].
  split; intros d t1 u1 Hd.
  - destruct (SIR_f_total beta gamma N t du u d Hdu Hd) as [Hlen _].
    exact (proj1 (Hany d du t1 u1 Hlen Hdu)).
  - destruct (SIR_mitigated_f_total beta gamma N q Nq t du u d Hdu Hd)
      as [Hlen _].
    exact (proj2 (Hany d du t1 u1 Hlen Hdu)).
Qed.

Lemma f_scratch_overwritten_witness :
  SIR.f 0.25 0.05 7770000000 (zeros 3) 0 [100; 10; 1]
  = SIR.f 0.25 0.05 7770000000 [5; 6; 7] 0 [100; 10; 1] /\
  SIR_mitigated.f 0.25 0.05 7770000000 0.5 180 (zeros 3) 0 [100; 10; 1]
  = SIR_mitigated.f 0.25 0.05 7770000000 0.5 180 [5; 6; 7] 0 [100; 10; 1].
Proof.
  split.
  - apply (proj1 (f_scratch_overwritten 0.25 0.05 7770000000 0.5 180 0
                    (zeros 3) [5; 6; 7] [100; 10; 1] eq_refl eq_refl)).
  - apply (proj1 (proj2 (f_scratch_overwritten 0.25 0.05 7770000000 0.5 180 0
                           (zeros 3) [5; 6; 7] [100; 10; 1] eq_refl eq_refl))).
Defined.

(** ** The multiplier [qval] over time *)

Lemma f_qval_one (beta gamma N q Nq t : Q) (du u : ndarray) :
  SIR_mitigated.qval q Nq t = 1 ->
  SIR_mitigated.f beta gamma N q Nq du t u = SIR.f beta gamma N du t u.
Proof.
  intros Hq. unfold SIR_mitigated.f, SIR.f. rewrite Hq.
  destruct (getitem u 1) as [u1|e]; [|reflexivity].
  destruct (getitem u 0) as [u0|e]; [|reflexivity].
  cbn [mbind result_bind].
  now rewrite Qmult_opp1_l_eq, Qmult_1_l_eq.
Qed.

(** X4: for a factor q in [0,1] the multiplier stays between q and 1 and
    never decreases with time; once the time has reached [Nq] the closure
    of [SIR_mitigated] returns, at that and every later time, exactly what
    the closure of [SIR] returns: mitigation ends once and does not
    resume. *)
Theorem qval_monotone (beta gamma N q Nq t t' : Q) (du u : ndarray) :
  0 <= q -> q <= 1 -> t <= t' ->
  q <= SIR_mitigated.qval q Nq t /\
  SIR_mitigated.qval q Nq t <= SIR_mitigated.qval q Nq t' /\
  SIR_mitigated.qval q Nq t' <= 1 /\
  (Nq <= t ->
   SIR_mitigated.f beta gamma N q Nq du t' u = SIR.f beta gamma N du t' u).
Proof.
  intros Hq0 Hq1 Htt.
  assert (Hcases : forall s, SIR_mitigated.qval q Nq s = q \/
                             SIR_mitigated.qval q Nq s = 1).
  { intros s. unfold SIR_mitigated.qval. destruct (Qlt_bool s Nq); auto. }
  split; [|split; [|split]].
  - destruct (Hcases t) as [-> | ->]; [apply Qle_refl | assumption].
  - destruct (Qlt_le_dec t' Nq) as [Hlt|Hge].
    + rewrite (qval_before q Nq t'), (qval_before q Nq t);
        [apply Qle_refl | | assumption].
      eapply Qle_lt_trans; eassumption.
    + rewrite (qval_after q Nq t') by assumption.
      destruct (Hcases t) as [-> | ->]; [assumption | apply Qle_refl].
  - destruct (Hcases t') as [-> | ->]; [assumption | apply Qle_refl].
  - intros Hend. apply f_qval_one, qval_after.
    eapply Qle_trans; eassumption.
Qed.

Lemma qval_monotone_witness :
  0.5 <= SIR_mitigated.qval 0.5 180 180 /\
  SIR_mitigated.qval 0.5 180 180 <= SIR_mitigated.qval 0.5 180 200 /\
  SIR_mitigated.qval 0.5 180 200 <= 1 /\
  (180 <= 180 ->
   SIR_mitigated.f 0.25 0.05 7770000000 0.5 180 (zeros 3) 200 [100; 10; 1]
   = SIR.f 0.25 0.05 7770000000 (zeros 3) 200 [100; 10; 1]).
Proof.
  apply (qval_monotone 0.25 0.05 7770000000 0.5 180 180 200 (zeros 3)
           [100; 10; 1]); discriminate.
Defined.

(** X5: while t < Nq the right-hand side of [SIR_mitigated] with contact
    rate beta and factor q is the right-hand side of [SIR] with contact
    rate q * beta. *)
Theorem mitigation_scales_beta (beta gamma N q Nq t S I R : Q) (du : ndarray) :
  length du = 3%nat -> t < Nq ->
  exists d d',
    SIR_mitigated.f beta gamma N q Nq du t [S; I; R] = Ok d /\
    SIR.f (q * beta) gamma N du t [S; I; R] = Ok d' /\
    veq d d'.
Proof.
  intros Hdu Ht. eexists _, _.
  split; [apply SIR_mitigated_f_eval; assumption|].
  split; [apply SIR_f_eval; assumption|].
  rewrite (qval_before q Nq t Ht). apply veq3; unfold Qdiv; ring.
Qed.

Lemma mitigation_scales_beta_witness :
  exists d d',
    SIR_mitigated.f 0.25 0.05 7770000000 0.5 180 (zeros 3) 0 [100; 10; 1]
    = Ok d /\
    SIR.f (0.5 * 0.25) 0.05 7770000000 (zeros 3) 0 [100; 10; 1] = Ok d' /\
    veq d d'.
Proof.
  apply (mitigation_scales_beta 0.25 0.05 7770000000 0.5 180 0 100 10 1
           (zeros 3)); reflexivity.
Defined.

(** ** Signs and sizes of the derivatives *)

Lemma contact_term_nonneg (beta N S I : Q) :
  0 <= beta -> 0 < N -> 0 <= S -> 0 <= I -> 0 <= beta * I * S / N.
Proof.
  intros Hb HN HS HI. unfold Qdiv.
  apply Qmult_le_0_compat; [|apply Qlt_le_weak, Qinv_lt_0_compat; assumption].
  apply Qmult_le_0_compat; [|assumption].
  apply Qmult_le_0_compat; assumption.
Qed.

(** X6: at a state with S, I >= 0, for beta >= 0, N > 0 and a factor q in
    [0,1], mitigation never speeds the epidemic up: the S component of the
    mitigated right-hand side lies between the unmitigated one and 0, the I
    component is at most the unmitigated one, and the R component is the
    same. *)
Theorem mitigation_slows_infection
    (beta gamma N q Nq t S I R : Q) (du : ndarray) :
  length du = 3%nat ->
  0 <= beta -> 0 < N -> 0 <= S -> 0 <= I -> 0 <= q -> q <= 1 ->
  exists dS dI dR dS' dI' dR',
    SIR.f beta gamma N du t [S; I; R] = Ok [dS; dI; dR] /\
    SIR_mitigated.f beta gamma N q Nq du t [S; I; R] = Ok [dS'; dI'; dR'] /\
    dS <= dS' /\ dS' <= 0 /\ dI' <= dI /\ dR' = dR.
Proof.
  intros Hdu Hb HN HS HI Hq0 Hq1. eexists _, _, _, _, _, _.
  split; [apply SIR_f_eval; assumption|].
  split; [apply SIR_mitigated_f_eval; assumption|].
  pose proof (contact_term_nonneg beta N S I Hb HN HS HI) as Ha.
  assert (Hm : 0 <= SIR_mitigated.qval q Nq t <= 1).
  { unfold SIR_mitigated.qval. destruct (Qlt_bool t Nq).
    - split; assumption.
    - split; discriminate. }
  set (m := SIR_mitigated.qval q Nq t) in *. clearbody m.
  assert (E1 : - beta * I * S / N == - (beta * I * S / N))
    by (unfold Qdiv; ring).
  assert (E2 : - m * beta * I * S / N == - (m * (beta * I * S / N)))
    by (unfold Qdiv; ring).
  assert (E3 : m * beta * I * S / N == m * (beta * I * S / N))
    by (unfold Qdiv; ring).
  rewrite E1, E2, E3. set (a := beta * I * S / N) in *. clearbody a.
  repeat split; try reflexivity; nra.
Qed.

Lemma mitigation_slows_infection_witness :
  exists dS dI dR dS' dI' dR',
    SIR.f 0.25 0.05 7770000000 (zeros 3) 0 [100; 10; 1] = Ok [dS; dI; dR] /\
    SIR_mitigated.f 0.25 0.05 7770000000 0.5 180 (zeros 3) 0 [100; 10; 1]
    = Ok [dS'; dI'; dR'] /\
    dS <= dS' /\ dS' <= 0 /\ dI' <= dI /\ dR' = dR.
Proof.
  apply (mitigation_slows_infection 0.25 0.05 7770000000 0.5 180 0 100 10 1
           (zeros 3));
    [reflexivity | discriminate | reflexivity | discriminate | discriminate
    | discriminate | discriminate].
Defined.

(** X7: for every contact rate beta > 0, every N > 0 and every state with
    I > 0, the I component of the right-hand side of [SIR] has the sign of
    S / N - gamma / beta, and that of [SIR_mitigated] has the sign of
    qval * beta * (S / N) - gamma. *)
Theorem infected_derivative_sign
    (beta gamma N q Nq t S I R : Q) (du : ndarray) :
  length du = 3%nat -> 0 < beta -> 0 < N -> 0 < I ->
  exists dS dI dR dS' dI' dR',
    SIR.f beta gamma N du t [S; I; R] = Ok [dS; dI; dR] /\
    SIR_mitigated.f beta gamma N q Nq du t [S; I; R] = Ok [dS'; dI'; dR'] /\
    (dI == 0 <-> S / N == gamma / beta) /\
    (0 < dI <-> gamma / beta < S / N) /\
    (dI < 0 <-> S / N < gamma / beta) /\
    (dI' == 0 <-> SIR_mitigated.qval q Nq t * beta * (S / N) == gamma) /\
    (0 < dI' <-> gamma < SIR_mitigated.qval q Nq t * beta * (S / N)) /\
    (dI' < 0 <-> SIR_mitigated.qval q Nq t * beta * (S / N) < gamma).
Proof.
  intros Hdu Hb _ HI. eexists _, _, _, _, _, _.
  split; [apply SIR_f_eval; assumption|].
  split; [apply SIR_mitigated_f_eval; assumption|].
  assert (Hbne : ~ beta == 0) by (intros E; rewrite E in Hb; discriminate Hb).
  assert (Hr : gamma == gamma / beta * beta) by (field; assumption).
  set (r := gamma / beta) in *. clearbody r.
  set (m := SIR_mitigated.qval q Nq t). clearbody m.
  assert (Hc : 0 < I * beta) by (apply Qmult_lt_0_compat; assumption).
  assert (E1 : beta * I * S / N - gamma * I == I * beta * (S / N - r)).
  { rewrite Hr at 1. unfold Qdiv. ring. }
  assert (E2 : m * beta * I * S / N - gamma * I
               == I * (m * beta * (S / N) - gamma)) by (unfold Qdiv; ring).
  rewrite E1, E2. set (x := S / N). clearbody x.
  set (c := I * beta) in *. clearbody c.
  set (w := m * beta * x). clearbody w.
  repeat split; intros H; nra.
Qed.

Lemma infected_derivative_sign_witness :
  exists dS dI dR dS' dI' dR',
    SIR.f 0.3 0.05 7770000000 (zeros 3) 0 [100; 10; 1] = Ok [dS; dI; dR] /\
    SIR_mitigated.f 0.3 0.05 7770000000 0.5 180 (zeros 3) 0 [100; 10; 1]
    = Ok [dS'; dI'; dR'] /\
    (dI == 0 <-> 100 / 7770000000 == 0.05 / 0.3) /\
    (0 < dI <-> 0.05 / 0.3 < 100 / 7770000000) /\
    (dI < 0 <-> 100 / 7770000000 < 0.05 / 0.3) /\
    (dI' == 0 <->
     SIR_mitigated.qval 0.5 180 0 * 0.3 * (100 / 7770000000) == 0.05) /\
    (0 < dI' <->
     0.05 < SIR_mitigated.qval 0.5 180 0 * 0.3 * (100 / 7770000000)) /\
    (dI' < 0 <->
     SIR_mitigated.qval 0.5 180 0 * 0.3 * (100 / 7770000000) < 0.05).
Proof.
  apply (infected_derivative_sign 0.3 0.05 7770000000 0.5 180 0 100 10 1
           (zeros 3)); reflexivity.
Defined.

(** X8: once the susceptible fraction S / N has fallen to gamma / beta,
    the number of infected does not grow, whatever the factor q in [0,1]
    and whether or not mitigation is still in force: the I component of
    both right-hand sides is at most 0. *)
Theorem no_growth_below_threshold
    (beta gamma N q Nq t S I R : Q) (du : ndarray) :
  length du = 3%nat ->
  0 < beta -> 0 < N -> 0 <= S -> 0 <= I -> 0 <= q -> q <= 1 ->
  S / N <= gamma / beta ->
  exists dS dI dR dS' dI' dR',
    SIR.f beta gamma N du t [S; I; R] = Ok [dS; dI; dR] /\
    SIR_mitigated.f beta gamma N q Nq du t [S; I; R] = Ok [dS'; dI'; dR'] /\
    dI <= 0 /\ dI' <= 0.
Proof.
  intros Hdu Hb HN HS HI Hq0 Hq1 Hx. eexists _, _, _, _, _, _.
  split; [apply SIR_f_eval; assumption|].
  split; [apply SIR_mitigated_f_eval; assumption|].
  assert (Hm : 0 <= SIR_mitigated.qval q Nq t <= 1).
  { unfold SIR_mitigated.qval. destruct (Qlt_bool t Nq).
    - split; assumption.
    - split; discriminate. }
  set (m := SIR_mitigated.qval q Nq t) in *. clearbody m.
  assert (Hbne : ~ beta == 0) by (intros E; rewrite E in Hb; discriminate Hb).
  assert (Hr : gamma == gamma / beta * beta) by (field; assumption).
  set (r := gamma / beta) in *. clearbody r.
  assert (Hx0 : 0 <= S / N).
  { unfold Qdiv. apply Qmult_le_0_compat; [assumption|].
    apply Qlt_le_weak, Qinv_lt_0_compat. assumption. }
  set (x := S / N) in *.
  assert (E1 : beta * I * S / N - gamma * I == I * (beta * x - gamma))
    by (unfold x, Qdiv; ring).
  assert (E2 : m * beta * I * S / N - gamma * I
               == I * (m * (beta * x) - gamma)) by (unfold x, Qdiv; ring).
  rewrite E1, E2. clearbody x.
  assert (Hbx : beta * x <= gamma) by (rewrite Hr; nra).
  assert (Hbx0 : 0 <= beta * x) by nra.
  set (w := beta * x) in *. clearbody w.
  assert (Hmw : m * w <= gamma) by nra.
  split; nra.
Qed.

Lemma no_growth_below_threshold_witness :
  exists dS dI dR dS' dI' dR',
    SIR.f 0.25 0.05 1000 (zeros 3) 200 [100; 10; 890] = Ok [dS; dI; dR] /\
    SIR_mitigated.f 0.25 0.05 1000 0.5 180 (zeros 3) 200 [100; 10; 890]
    = Ok [dS'; dI'; dR'] /\
    dI <= 0 /\ dI' <= 0.
Proof.
  apply (no_growth_below_threshold 0.25 0.05 1000 0.5 180 200 100 10 890
           (zeros 3));
    [reflexivity | reflexivity | reflexivity | discriminate | discriminate
    | discriminate | discriminate | discriminate].
Defined.

(** ** The sample times *)






(** ** Sign of the initial state *)

Lemma u0_closed_form (N cf : Q) :
  ~ cf == 0 ->
  exists S0 I0 R0,
    SIR.u0 N cf = Ok [S0; I0; R0] /\
    S0 == N - 199258 * / cf /\
    I0 == 117286 * / cf - 7956 /\
    R0 == 81972 * / cf + 7956.
Proof.
  intros Hne. rewrite (SIR_u0_eval N cf Hne). eexists _, _, _.
  split; [reflexivity|]. cbn. repeat split; field; assumption.
Qed.

(** X10: for a confirmed fraction cf > 0 and a population N > 0 the
    derived S0 is N - 199258 / cf, whatever the recovered counts; R0 is
    positive; I0 is non-negative exactly when cf <= 117286 / 7956; and S0 is
    non-negative exactly when cf >= 199258 / N. *)
Theorem initial_state_signs (N cf : Q) :
  0 < cf -> 0 < N ->
  exists S0 I0 R0,
    SIR.u0 N cf = Ok [S0; I0; R0] /\
    SIR_mitigated.u0 N cf = Ok [S0; I0; R0] /\
    S0 == N - 199258 / cf /\
    0 < R0 /\
    (0 <= I0 <-> cf <= 117286 / 7956) /\
    (0 <= S0 <-> 199258 / N <= cf).
Proof.
  intros Hcf HN.
  assert (Hne : ~ cf == 0) by (intros E; rewrite E in Hcf; discriminate Hcf).
  assert (HNne : ~ N == 0) by (intros E; rewrite E in HN; discriminate HN).
  destruct (u0_closed_form N cf Hne) as (S0 & I0 & R0 & Hu & HS & HI & HR).
  exists S0, I0, R0. split; [assumption|]. split; [assumption|].
  assert (Hy : 0 < / cf) by (apply Qinv_lt_0_compat; assumption).
  assert (Hz : 0 < / N) by (apply Qinv_lt_0_compat; assumption).
  assert (Hcy : cf * / cf == 1) by (field; assumption).
  assert (HNz : N * / N == 1) by (field; assumption).
  assert (Hc : 117286 / 7956 == 58643 # 3978) by reflexivity.
  unfold Qdiv. fold (Qdiv 117286 7956). rewrite Hc, HS, HI, HR.
  set (y := / cf) in *. set (z := / N) in *. clearbody y z.
  split; [reflexivity|]. split; [nra|]. split; split; intros H.
  - assert (H' : 0 <= cf * (117286 * y - 7956)) by nra. nra.
  - assert (H' : 0 <= y * (117286 - 7956 * cf)) by nra. nra.
  - assert (H' : 0 <= cf * (N - 199258 * y)) by nra.
    assert (H'' : 0 <= z * (N * cf - 199258)) by nra. nra.
  - assert (H' : 0 <= N * (cf - 199258 * z)) by nra.
    assert (H'' : 0 <= y * (N * cf - 199258)) by nra. nra.
Qed.

Lemma initial_state_signs_witness :
  exists S0 I0 R0,
    SIR.u0 1000000 20 = Ok [S0; I0; R0] /\
    SIR_mitigated.u0 1000000 20 = Ok [S0; I0; R0] /\
    S0 == 1000000 - 199258 / 20 /\
    0 < R0 /\
    (0 <= I0 <-> 20 <= 117286 / 7956) /\
    (0 <= S0 <-> 199258 / 1000000 <= 20).
Proof.
  apply (initial_state_signs 1000000 20); reflexivity.
Defined.

(** X11: every confirmed fraction that the slider of either [interact]
    call can produce (0.01 to 1.0), together with the fixed population
    7770000000, gives an initial state whose three entries are positive; S0
    is at least 7750074200 and I0 at least 109330. *)
Theorem slider_initial_state_positive (cf : Q) :
  widgets.in_range interact_SIR.confirmed_fraction cf \/
  widgets.in_range interact_SIR_mitigated.confirmed_fraction cf ->
  exists S0 I0 R0,
    SIR.u0 interact_SIR.N cf = Ok [S0; I0; R0] /\
    SIR_mitigated.u0 interact_SIR_mitigated.N cf = Ok [S0; I0; R0] /\
    7750074200 <= S0 /\ 109330 <= I0 /\ 0 < R0.
Proof.
  intros Hr.
  assert (Hcf : 0.01 <= cf /\ cf <= 1.0) by (destruct Hr as [Hr|Hr]; exact Hr).
  destruct Hcf as [Hlo Hhi].
  assert (Hpos : 0 < cf) by lra.
  assert (Hne : ~ cf == 0) by (intros E; rewrite E in Hpos; discriminate Hpos).
  destruct (u0_closed_form interact_SIR.N cf Hne)
    as (S0 & I0 & R0 & Hu & HS & HI & HR).
  exists S0, I0, R0. split; [assumption|]. split; [assumption|].
  assert (Hy : 0 < / cf) by (apply Qinv_lt_0_compat; assumption).
  assert (Hcy : cf * / cf == 1) by (field; assumption).
  rewrite HS, HI, HR. unfold interact_SIR.N.
  set (y := / cf) in *. clearbody y.
  assert (Hy1 : 1 <= y) by nra.
  assert (Hy100 : y <= 100) by nra.
  repeat split; lra.
Qed.

Lemma slider_initial_state_positive_witness :
  exists S0 I0 R0,
    SIR.u0 interact_SIR.N 0.01 = Ok [S0; I0; R0] /\
    SIR_mitigated.u0 interact_SIR_mitigated.N 0.01 = Ok [S0; I0; R0] /\
    7750074200 <= S0 /\ 109330 <= I0 /\ 0 < R0.
Proof.
  apply (slider_initial_state_positive 0.01).
  left. split; discriminate.
Defined.
